(** * verify_fix.py: a model of the script and of what it does when executed

    The script defines one coroutine function, [run], and a [__main__]
    guard.  Everything it does is a call into the outside world: calls into
    the Playwright library and writes to standard output.  The model
    therefore runs the script in a small state-and-exception monad over a
    [world] that records

    - the calls made, in order ([trace]),
    - the browser-side resources currently alive ([held]),
    - the module namespace ([globals]), a Python dict.

    Playwright is not part of the repository.  Its replies are a parameter
    of the model (the class [Playwright]): every call may return a value or
    raise, and every theorem about [run] is stated for an arbitrary
    instance.  [await] on a single task is sequential composition.

    What the interpreter finds when the module is executed is a parameter
    too (the class [Interpreter]): an import may succeed or raise, and a
    name of the module that was rebound to some other object answers a
    call as that object does. *)

From Stdlib Require Import ZArith Lia Ascii String.
From stdpp Require Import base strings list gmap.

Local Open Scope string_scope.

(** ** Values of the outside world *)

(** Opaque identities of library objects (a Playwright driver, a browser, a
    page). *)
Definition handle := nat.

(** A raised Python exception, with its message. *)
Inductive exn : Type :=
| Exception (msg : string).

(** How a call ends: it returns a value or it raises. *)
Inductive outcome (A : Type) : Type :=
| Returns (a : A)
| Raises (e : exn).
Arguments Returns {A} a.
Arguments Raises {A} e.

(** The calls a Python script of this kind can make.  The script makes the
    first seven kinds; the others are the vocabulary of the claims that say
    what the script does not do. *)
Inductive action : Type :=
| StartPlaywright                                  (* async_playwright().__aenter__() *)
| StopPlaywright (pw : handle)                     (* ....__aexit__(...) *)
| Launch (pw : handle) (browser_type : string) (headless : bool)
| NewPage (browser : handle)
| SetViewportSize (page : handle) (width height : Z)
| AddInitScript (page : handle) (script : string)
| Print (line : string)
| Goto (page : handle) (url : string)              (* page.goto(url) *)
| Assert (cond : bool)                             (* assert / expect(...) *)
| Screenshot (page : handle)                       (* page.screenshot() *)
| OpenFile (path : string)                         (* open(path, ...) *)
| GetEnv (var : string)                            (* os.environ[var] *)
| ReadArgv.                                        (* sys.argv / argparse *)

(** Browser-side resources.  A browser process belongs to the driver that
    launched it, a page to the browser that opened it. *)
Inductive resource : Type :=
| Driver (pw : handle)
| BrowserProc (pw browser : handle)
| PageTab (browser page : handle).

(** What a name of the module namespace is bound to. *)
Inductive binding : Type :=
| BStr (s : string)
| BModule (name : string)
| BImported (module name : string)
| BCoroutineFunction (name : string)
| BBuiltin (name : string).

Record world : Type := World {
  trace : list action;
  held : list resource;
  globals : gmap string binding
}.

Definition with_trace (t : list action) (w : world) : world :=
  World t (held w) (globals w).
Definition with_held (h : list resource) (w : world) : world :=
  World (trace w) h (globals w).
Definition with_globals (g : gmap string binding) (w : world) : world :=
  World (trace w) (held w) g.

(** ** The monad *)

Definition M (A : Type) : Type := world -> outcome A * world.

Definition ret {A} (a : A) : M A := fun w => (Returns a, w).

Definition raise {A} (e : exn) : M A := fun w => (Raises e, w).

Definition bind {A B} (m : M A) (k : A -> M B) : M B :=
  fun w =>
    match m w with
    | (Returns a, w') => k a w'
    | (Raises e, w') => (Raises e, w')
    end.

Notation "x <- m ;; k" := (bind m (fun x => k))
  (at level 90, m at level 80, right associativity).
Notation "m ;;; k" := (bind m (fun _ => k))
  (at level 90, right associativity).

(** [log a] records that call [a] was made. *)
Definition log (a : action) : M unit :=
  fun w => (Returns tt, with_trace (trace w ++ [a]) w).

Definition acquire (rs : list resource) : M unit :=
  fun w => (Returns tt, with_held (held w ++ rs) w).

(** A call into the library: it is recorded, then the library's reply
    decides whether it returns or raises. *)
Definition reply {A} (r : outcome A) : M A := fun w => (r, w).

Definition call {A} (a : action) (r : outcome A) : M A :=
  log a ;;; reply r.

(** [pass] and the end of a function body. *)
Definition pass : M unit := ret tt.

(** [print(line)] writes one line to standard output. *)
Definition print (line : string) : M unit := log (Print line).

(** Standard output is the sequence of printed lines. *)
Definition stdout_of (t : list action) : list string :=
  flat_map (fun a => match a with Print l => [l] | _ => [] end) t.
Definition stdout (w : world) : list string := stdout_of (trace w).

(** ** The Playwright library, as far as the script calls it *)

Class Playwright : Type := {
  pw_start : outcome handle;
  pw_stop : handle -> outcome unit;
  pw_launch : handle -> string -> bool -> outcome handle;
  pw_new_page : handle -> outcome handle;
  pw_set_viewport_size : handle -> Z -> Z -> outcome unit;
  pw_add_init_script : handle -> string -> outcome unit
}.

(** Resources that go away when driver [pw] stops: the driver, the browser
    processes it launched, and the pages of those browsers. *)
Definition launched_by (pw browser : handle) (r : resource) : bool :=
  match r with
  | BrowserProc d b => Nat.eqb d pw && Nat.eqb b browser
  | _ => false
  end.

Definition owned_by (pw : handle) (hs : list resource) (r : resource) : bool :=
  match r with
  | Driver d => Nat.eqb d pw
  | BrowserProc d _ => Nat.eqb d pw
  | PageTab b _ => existsb (launched_by pw b) hs
  end.

Definition release (pw : handle) : M unit :=
  fun w =>
    (Returns tt,
     with_held (List.filter (fun r => negb (owned_by pw (held w) r)) (held w)) w).

Section Library.
Context {lib : Playwright}.

(** [async_playwright().__aenter__()]: starts the driver. *)
Definition async_playwright_enter : M handle :=
  pw <- call StartPlaywright pw_start ;;
  acquire [Driver pw] ;;;
  ret pw.

(** [__aexit__]: stops the driver; when that succeeds the driver, its
    browsers and their pages are gone. *)
Definition async_playwright_exit (pw : handle) : M unit :=
  call (StopPlaywright pw) (pw_stop pw) ;;;
  release pw.

(** [async with async_playwright() as p: body].  The exit runs on every
    path out of the body.  Playwright's [__aexit__] returns [None], so an
    exception of the body propagates; an exception of the exit replaces
    it. *)
Definition async_with_playwright {A} (body : handle -> M A) : M A :=
  fun w =>
    match async_playwright_enter w with
    | (Raises e, w1) => (Raises e, w1)
    | (Returns p, w1) =>
        let '(r, w2) := body p w1 in
        match async_playwright_exit p w2 with
        | (Returns _, w3) => (r, w3)
        | (Raises e', w3) => (Raises e', w3)
        end
    end.

(** [p.chromium.launch(headless=...)], and likewise for other browser
    types. *)
Definition launch (pw : handle) (browser_type : string) (headless : bool)
  : M handle :=
  b <- call (Launch pw browser_type headless)
            (pw_launch pw browser_type headless) ;;
  acquire [BrowserProc pw b] ;;;
  ret b.

(** [browser.new_page()] *)
Definition new_page (browser : handle) : M handle :=
  pg <- call (NewPage browser) (pw_new_page browser) ;;
  acquire [PageTab browser pg] ;;;
  ret pg.

(** [page.set_viewport_size({"width": w, "height": h})] *)
Definition set_viewport_size (page : handle) (width height : Z) : M unit :=
  call (SetViewportSize page width height)
       (pw_set_viewport_size page width height).

(** [page.add_init_script(script)] *)
Definition add_init_script (page : handle) (script : string) : M unit :=
  call (AddInitScript page script) (pw_add_init_script page script).
End Library.

(** ** The literals of the script *)

Definition nl : string := String "010"%char EmptyString.
Definition dq : string := String "034"%char EmptyString.
Definition ind8 : string := "        ".
Definition ind12 : string := ind8 ++ "    ".
Definition ind16 : string := ind12 ++ "    ".
Definition ind20 : string := ind16 ++ "    ".
Definition ind24 : string := ind20 ++ "    ".

(** The object handed to [JSON.stringify]: the mock autosave state with a
    storyboard of two placeholder panels (lines 15 to 23 of the source). *)
Definition mock_autosave : string :=
  "{" ++ nl ++
  ind16 ++ "storyboard: {" ++ nl ++
  ind20 ++ "title: " ++ dq ++ "Test Story" ++ dq ++ "," ++ nl ++
  ind20 ++ "panels: [" ++ nl ++
  ind24 ++ "{id: 1, layout: {x: 0, y: 0, width: 300, height: 300}, status: 'completed', imageUrl: 'https://via.placeholder.com/600x600'}," ++ nl ++
  ind24 ++ "{id: 2, layout: {x: 324, y: 0, width: 300, height: 300}, status: 'completed', imageUrl: 'https://via.placeholder.com/600x600'}" ++ nl ++
  ind20 ++ "]" ++ nl ++
  ind16 ++ "}" ++ nl ++
  ind12 ++ "}".

(** The triple-quoted argument of [add_init_script], with the stringified
    object left open. *)
Definition init_script_with (autosave : string) : string :=
  nl ++
  ind12 ++ "localStorage.setItem('gemini_api_key', 'test_key');" ++ nl ++
  ind12 ++ "localStorage.setItem('mangaGen_autosave', JSON.stringify(" ++
  autosave ++ "));" ++ nl ++
  ind8.

Definition init_script : string := init_script_with mock_autosave.

Definition navigating_message : string := "Navigating to app...".

Definition skip_message : string :=
  "Skipping runtime verification due to environment constraints. Proceeding with static verification.".

(** ** The script *)

Section Script.
Context {lib : Playwright}.

(** The statements inside the [async with] block, lines 6 to 32, with
    the driver [p] the block was entered with. *)
Definition block_body (autosave : string) (p : handle) : M unit :=
  browser <- launch p "chromium" true ;;
  page <- new_page browser ;;
  set_viewport_size page 1280 800 ;;;
  add_init_script page (init_script_with autosave) ;;;
  print navigating_message ;;;
  pass.

(** The body of [run], with the object written to local storage as a
    parameter. *)
Definition run_with (autosave : string) : M unit :=
  async_with_playwright (block_body autosave).

(** [async def run()], lines 4 to 32. *)
Definition run : M unit := run_with mock_autosave.
End Script.

(** ** The module top level *)

(** What the interpreter finds when it executes the module.  An import
    returns or raises ([ModuleNotFoundError] when the package is not
    installed, [ImportError] when the module lacks the name).  An object
    that is not one of the model's builtins answers a call with one string
    argument by returning or raising; what its own code does is not a
    statement of the script and is not recorded. *)
Class Interpreter : Type := {
  import_module : string -> outcome unit;
  import_from : string -> string -> outcome unit;
  call_object : binding -> string -> outcome unit
}.

(** Of the [builtins] module, the two names the script resolves there when
    its own namespace does not bind them. *)
Definition builtins : gmap string binding :=
  {[ "__name__" := BStr "builtins"; "print" := BBuiltin "print" ]}.

Definition store_global (name : string) (b : binding) : M unit :=
  fun w => (Returns tt, with_globals (<[name := b]> (globals w)) w).

(** A global name is looked up in the module namespace, then in the
    builtins; a name bound in neither raises [NameError]. *)
Definition load_global (name : string) : M binding :=
  fun w =>
    match globals w !! name with
    | Some b => (Returns b, w)
    | None =>
        match builtins !! name with
        | Some b => (Returns b, w)
        | None => (Raises (Exception ("NameError: " ++ name)), w)
        end
    end.

(** [async def name(): ...] binds the name and runs nothing. *)
Definition async_def (name : string) : M unit :=
  store_global name (BCoroutineFunction name).

(** [x == "literal"] on a loaded value. *)
Definition eq_str (b : binding) (s : string) : bool :=
  match b with
  | BStr s' => String.eqb s' s
  | _ => false
  end.

Section Module.
Context {env : Interpreter}.

(** [import m]: binds the module when the import returns, binds nothing
    and raises when it does not.  The top-level code of the imported
    module is not code of the script. *)
Definition import_ (module : string) : M unit :=
  reply (import_module module) ;;;
  store_global module (BModule module).

(** [from m import n], likewise. *)
Definition from_import (module name : string) : M unit :=
  reply (import_from module name) ;;;
  store_global name (BImported module name).

(** [name(arg)] at module level: the name is resolved first.  The builtin
    [print] prints; a string or a module is not callable; any other object
    answers as the interpreter says. *)
Definition call_global (name arg : string) : M unit :=
  f <- load_global name ;;
  match f with
  | BBuiltin b =>
      if String.eqb b "print" then print arg else reply (call_object f arg)
  | BStr _ => raise (Exception "TypeError: 'str' object is not callable")
  | BModule _ => raise (Exception "TypeError: 'module' object is not callable")
  | BImported _ _ | BCoroutineFunction _ => reply (call_object f arg)
  end.

(** The [__main__] guard, lines 34 to 39: it prints and does not call
    [run]. *)
Definition main_guard : M unit :=
  name <- load_global "__name__" ;;
  if eq_str name "__main__"
  then call_global "print" skip_message
  else ret tt.

(** The module top level, lines 1 to 39. *)
Definition verify_fix : M unit :=
  import_ "asyncio" ;;;
  from_import "playwright.async_api" "async_playwright" ;;;
  async_def "run" ;;;
  main_guard.
End Module.

(** The world in which the interpreter starts a module called [name]:
    nothing has happened yet and only [__name__] is bound. *)
Definition fresh_world (name : string) : world :=
  World [] [] {[ "__name__" := BStr name ]}.

Local Open Scope list_scope.

(** ** What an execution adds to the trace *)

(** The calls made by [m] when started in [w]: the trace only grows, so
    these are the actions after the ones [w] already had. *)
Definition steps {A} (m : M A) (w : world) : list action :=
  drop (length (trace w)) (trace (snd (m w))).

Definition result {A} (m : M A) (w : world) : outcome A := fst (m w).
Definition after {A} (m : M A) (w : world) : world := snd (m w).

(** The calls of the body of [run] when every one of them returns: [p] is
    the driver, [b] the browser and [pg] the page the library handed out. *)
Definition full_body (autosave : string) (p b pg : handle) : list action :=
  [ Launch p "chromium" true;
    NewPage b;
    SetViewportSize pg 1280 800;
    AddInitScript pg (init_script_with autosave);
    Print navigating_message ].

(** The shapes a run can take.  Either the driver does not start, or it
    starts, the body gets through some non-empty prefix of its calls (the
    first raising call is the last one of the prefix), and the driver is
    stopped. *)
Inductive run_trace (autosave : string) : list action -> Prop :=
| run_trace_no_driver :
    run_trace autosave [StartPlaywright]
| run_trace_driver (p b pg : handle) (body : list action) :
    body `prefix_of` full_body autosave p b pg ->
    body <> [] ->
    run_trace autosave (StartPlaywright :: body ++ [StopPlaywright p]).

(** ** Classification of calls *)

Definition is_navigation (a : action) : bool :=
  match a with Goto _ _ => true | _ => false end.

Definition is_assertion (a : action) : bool :=
  match a with Assert _ => true | _ => false end.

(** Comparing the expected with the actual rendering needs the actual
    rendering, which a script obtains by a screenshot. *)
Definition is_rendering_comparison (a : action) : bool :=
  match a with Screenshot _ => true | _ => false end.



(** The part of the outside world a call touches. *)
Inductive effect : Type :=
| StdoutWrite
| BrowserLibraryCall
| InProcess
| FileAccess
| EnvironmentRead
| CommandLineRead.

Definition effect_of (a : action) : effect :=
  match a with
  | Print _ => StdoutWrite
  | StartPlaywright | StopPlaywright _ | Launch _ _ _ | NewPage _
  | SetViewportSize _ _ _ | AddInitScript _ _ | Goto _ _ | Screenshot _ =>
      BrowserLibraryCall
  | Assert _ => InProcess
  | OpenFile _ => FileAccess
  | GetEnv _ => EnvironmentRead
  | ReadArgv => CommandLineRead
  end.


(** The trace with the injected script blanked out: what remains of a run
    when the content of the script is not looked at. *)
Definition blank_script (a : action) : action :=
  match a with
  | AddInitScript pg _ => AddInitScript pg ""
  | _ => a
  end.

(** A library in which every call returns: the driver is 1, the browser 2,
    the page 3. *)
Definition cooperative : Playwright := {|
  pw_start := Returns 1;
  pw_stop := fun _ => Returns tt;
  pw_launch := fun _ _ _ => Returns 2;
  pw_new_page := fun _ => Returns 3;
  pw_set_viewport_size := fun _ _ _ => Returns tt;
  pw_add_init_script := fun _ _ => Returns tt
|}.

(** A library in which the browser starts but no page can be opened. *)
Definition no_pages : Playwright := {|
  pw_start := Returns 1;
  pw_stop := fun _ => Returns tt;
  pw_launch := fun _ _ _ => Returns 2;
  pw_new_page := fun _ => Raises (Exception "Target closed");
  pw_set_viewport_size := fun _ _ _ => Returns tt;
  pw_add_init_script := fun _ _ => Returns tt
|}.

(** The namespace after the two imports and the definition of [run]. *)
Definition module_bindings (g : gmap string binding) : gmap string binding :=
  <["run" := BCoroutineFunction "run"]>
    (<["async_playwright" := BImported "playwright.async_api" "async_playwright"]>
       (<["asyncio" := BModule "asyncio"]> g)).




(** The two kinds of effect the specification allows the script. *)
Definition stdout_or_library (a : action) : bool :=
  match effect_of a with
  | StdoutWrite | BrowserLibraryCall => true
  | _ => false
  end.

(** None of navigation, assertion, comparison of renderings. *)
Definition is_verification (a : action) : bool :=
  is_navigation a || is_assertion a || is_rendering_comparison a.

(** A library whose driver does not start. *)
Definition no_driver : Playwright := {|
  pw_start := Raises (Exception "Driver not found");
  pw_stop := fun _ => Returns tt;
  pw_launch := fun _ _ _ => Returns 2;
  pw_new_page := fun _ => Returns 3;
  pw_set_viewport_size := fun _ _ _ => Returns tt;
  pw_add_init_script := fun _ _ => Returns tt
|}.

(** A library in which no page can be opened and the driver then fails to
    stop. *)
Definition stop_fails : Playwright := {|
  pw_start := Returns 1;
  pw_stop := fun _ => Raises (Exception "Connection closed");
  pw_launch := fun _ _ _ => Returns 2;
  pw_new_page := fun _ => Raises (Exception "Target closed");
  pw_set_viewport_size := fun _ _ _ => Returns tt;
  pw_add_init_script := fun _ _ => Returns tt
|}.

(** The five library calls that [run] makes before its [print] all return,
    each one on the handle the one before it returned. *)
Definition body_calls_return {lib : Playwright} : Prop :=
  exists p b pg,
    pw_start = Returns p /\
    pw_launch p "chromium" true = Returns b /\
    pw_new_page b = Returns pg /\
    pw_set_viewport_size pg 1280 800 = Returns tt /\
    pw_add_init_script pg init_script = Returns tt.


(** What entitles [run] to make call [a]: its arguments are the literals
    of the source and the handles the library returned to the calls before
    it, all of which returned. *)
Definition entitled {lib : Playwright} (a : action) : Prop :=
  match a with
  | StartPlaywright => True
  | StopPlaywright p => pw_start = Returns p
  | Launch p browser_type headless =>
      pw_start = Returns p /\ browser_type = "chromium" /\ headless = true
  | NewPage b =>
      exists p, pw_start = Returns p /\
                pw_launch p "chromium" true = Returns b
  | SetViewportSize pg width height =>
      width = 1280%Z /\ height = 800%Z /\
      exists p b, pw_start = Returns p /\
                  pw_launch p "chromium" true = Returns b /\
                  pw_new_page b = Returns pg
  | AddInitScript pg script =>
      script = init_script /\
      exists p b, pw_start = Returns p /\
                  pw_launch p "chromium" true = Returns b /\
                  pw_new_page b = Returns pg /\
                  pw_set_viewport_size pg 1280 800 = Returns tt
  | Print line => line = navigating_message /\ body_calls_return
  | _ => False
  end.

Definition is_stop (a : action) : bool :=
  match a with StopPlaywright _ => true | _ => false end.

(** An interpreter with both packages installed. *)
Definition installed : Interpreter := {|
  import_module := fun _ => Returns tt;
  import_from := fun _ _ => Returns tt;
  call_object := fun _ _ => Raises (Exception "TypeError")
|}.

(** An interpreter without the [playwright] package. *)
Definition playwright_missing : Interpreter := {|
  import_module := fun _ => Returns tt;
  import_from := fun module _ =>
    Raises (Exception ("ModuleNotFoundError: No module named " ++ module)%string);
  call_object := fun _ _ => Raises (Exception "TypeError")
|}.

(** Both imports of the module return. *)
Definition imports_return {env : Interpreter} : Prop :=
  import_module "asyncio" = Returns tt /\
  import_from "playwright.async_api" "async_playwright" = Returns tt.

(** [print] is the builtin: the module namespace does not rebind it. *)
Definition print_is_builtin (w : world) : Prop :=
  globals w !! "print" = None.

(** The namespace after [import asyncio] alone. *)
Definition asyncio_binding (g : gmap string binding) : gmap string binding :=
  <["asyncio" := BModule "asyncio"]> g.


(** * Proofs *)

(** ** The monad and the trace *)

Ltac unfold_script :=
  unfold steps, result, after, run, run_with, block_body,
    async_with_playwright, async_playwright_enter, async_playwright_exit, launch, new_page,
    set_viewport_size, add_init_script, call, print, pass, acquire,
    release, reply, log, bind, ret; simpl.

(** Case analysis on the next reply of the library. *)
Ltac next_reply :=
  match goal with
  | |- context [match ?r with Returns _ => _ | Raises _ => _ end] =>
      let E := fresh "E" in destruct r eqn:E; simpl
  | |- context [let (_, _) := match ?r with Returns _ => _ | Raises _ => _ end in _] =>
      let E := fresh "E" in destruct r eqn:E; simpl
  end.

Ltac run_paths := unfold_script; repeat next_reply.

Lemma drop_own_trace (t k : list action) : drop (length t) (t ++ k) = k.
Proof. apply drop_app_length. Qed.

Lemma drop_whole_trace (t : list action) : drop (length t) t = [].
Proof. apply drop_all. Qed.

Ltac tidy_trace := rewrite <- ?app_assoc; simpl; rewrite ?drop_own_trace.

(** The trace of a run is the old trace followed by the steps of the run,
    and the module namespace is not touched. *)
Lemma run_with_extends_trace {lib : Playwright} (s : string) (w : world) :
  trace (after (run_with s) w) = trace w ++ steps (run_with s) w /\
  globals (after (run_with s) w) = globals w.
Proof. run_paths; tidy_trace; auto. Qed.

(** A non-empty initial segment of the body, between start and stop, is a
    shape of a run. *)
Lemma run_trace_firstn (s : string) (p b pg : handle) (k : nat) :
  1 <= k ->
  run_trace s
    (StartPlaywright :: firstn k (full_body s p b pg) ++ [StopPlaywright p]).
Proof.
  intros Hk. apply (run_trace_driver s p b pg).
  - exists (skipn k (full_body s p b pg)). symmetry. apply firstn_skipn.
  - destruct k as [|k]; [lia | discriminate].
Qed.

(** Every run has one of the shapes of [run_trace]. *)
Lemma run_with_steps_shape {lib : Playwright} (s : string) (w : world) :
  run_trace s (steps (run_with s) w).
Proof.
  run_paths; tidy_trace;
    solve
      [ apply run_trace_no_driver
      | refine (run_trace_firstn _ _ 0 0 1 _); lia
      | refine (run_trace_firstn _ _ _ 0 2 _); lia
      | refine (run_trace_firstn _ _ _ _ 3 _); lia
      | refine (run_trace_firstn _ _ _ _ 4 _); lia
      | refine (run_trace_firstn _ _ _ _ 5 _); lia ].
Qed.

(** ** The module top level *)

Lemma module_bindings_other (g : gmap string binding) (k : string) :
  k <> "asyncio" -> k <> "async_playwright" -> k <> "run" ->
  module_bindings g !! k = g !! k.
Proof.
  intros H1 H2 H3. unfold module_bindings.
  rewrite !lookup_insert_ne by congruence. reflexivity.
Qed.

Lemma module_bindings_name (g : gmap string binding) :
  module_bindings g !! "__name__" = g !! "__name__".
Proof. apply module_bindings_other; discriminate. Qed.

Lemma module_bindings_print (g : gmap string binding) :
  module_bindings g !! "print" = g !! "print".
Proof. apply module_bindings_other; discriminate. Qed.

Lemma builtins_name : builtins !! "__name__" = Some (BStr "builtins").
Proof. reflexivity. Qed.

Lemma builtins_print : builtins !! "print" = Some (BBuiltin "print").
Proof. reflexivity. Qed.

Ltac unfold_guard :=
  unfold main_guard, call_global, load_global, print, log, raise, reply,
    bind, ret;
  cbn [trace held globals with_trace with_held with_globals fst snd].

(** The guard in a namespace where [__name__] is [__main__] and [print] is
    the builtin: one print, nothing else changes. *)
Lemma main_guard_fires {env : Interpreter}
  (t : list action) (h : list resource) (g : gmap string binding) :
  g !! "__name__" = Some (BStr "__main__") ->
  g !! "print" = None ->
  main_guard (World t h g) =
    (Returns tt, World (t ++ [Print skip_message]) h g).
Proof.
  intros Hname Hprint. unfold_guard.
  rewrite Hname. cbn. rewrite Hprint, builtins_print. reflexivity.
Qed.

(** The guard under any other string: nothing happens. *)
Lemma main_guard_idle {env : Interpreter}
  (t : list action) (h : list resource) (g : gmap string binding)
  (name : string) :
  g !! "__name__" = Some (BStr name) ->
  name <> "__main__" ->
  main_guard (World t h g) = (Returns tt, World t h g).
Proof.
  intros Hname Hne. unfold_guard. rewrite Hname. cbn.
  destruct (String.eqb_spec name "__main__") as [->|_]; [contradiction|].
  reflexivity.
Qed.

(** In every namespace the guard makes no call or exactly the one print,
    and changes nothing but the trace. *)
Lemma main_guard_shape {env : Interpreter}
  (t : list action) (h : list resource) (g : gmap string binding) :
  exists r t',
    main_guard (World t h g) = (r, World (t ++ t') h g) /\
    (t' = [] \/ t' = [Print skip_message]).
Proof.
  unfold_guard.
  assert (Hnil : forall r : outcome unit,
             exists r' t', (r, World t h g) = (r', World (t ++ t') h g) /\
                           (t' = [] \/ t' = [Print skip_message])).
  { intros r. exists r, []. rewrite app_nil_r. auto. }
  assert (Hone : exists r' t',
             (Returns tt, World (t ++ [Print skip_message]) h g) =
               (r', World (t ++ t') h g) /\
             (t' = [] \/ t' = [Print skip_message])).
  { exists (Returns tt), [Print skip_message]. auto. }
  rewrite builtins_name, builtins_print.
  destruct (g !! "__name__") as [name|]; cbn;
    [destruct (eq_str name "__main__"); cbn|]; try apply Hnil.
  destruct (g !! "print") as [[s|m|m n|n|b]|]; cbn; try apply Hnil;
    try apply Hone.
  destruct (String.eqb b "print"); cbn; [apply Hone | apply Hnil].
Qed.

Ltac unfold_module :=
  unfold steps, result, after, stdout, verify_fix, import_, from_import,
    async_def, store_global, reply, bind;
  cbn [trace held globals with_trace with_held with_globals fst snd].

(** With both imports returning, the module is its three bindings followed
    by the guard. *)
Lemma verify_fix_installed {env : Interpreter} (w : world) :
  imports_return ->
  verify_fix w =
    main_guard (World (trace w) (held w) (module_bindings (globals w))).
Proof.
  intros [Hasyncio Hplaywright]. unfold_module.
  rewrite Hasyncio. cbn. rewrite Hplaywright. reflexivity.
Qed.

(** Executed as the main program with its imports returning and [print]
    the builtin, the module binds its three names and prints the skip
    message. *)
Lemma verify_fix_as_main {env : Interpreter} (w : world) :
  imports_return ->
  print_is_builtin w ->
  globals w !! "__name__" = Some (BStr "__main__") ->
  verify_fix w =
    (Returns tt,
     World (trace w ++ [Print skip_message]) (held w)
           (module_bindings (globals w))).
Proof.
  intros Himports Hprint Hname. rewrite (verify_fix_installed w Himports).
  apply main_guard_fires.
  - rewrite module_bindings_name. exact Hname.
  - rewrite module_bindings_print. exact Hprint.
Qed.

(** Executed under any other name with its imports returning, it only
    binds its three names. *)
Lemma verify_fix_as_import {env : Interpreter} (w : world) (name : string) :
  imports_return ->
  globals w !! "__name__" = Some (BStr name) ->
  name <> "__main__" ->
  verify_fix w =
    (Returns tt, World (trace w) (held w) (module_bindings (globals w))).
Proof.
  intros Himports Hname Hne. rewrite (verify_fix_installed w Himports).
  apply (main_guard_idle _ _ _ name); [|exact Hne].
  rewrite module_bindings_name. exact Hname.
Qed.

(** When [import asyncio] raises, the module ends there. *)
Lemma verify_fix_without_asyncio {env : Interpreter} (w : world) (e : exn) :
  import_module "asyncio" = Raises e ->
  verify_fix w = (Raises e, w).
Proof. intros Hasyncio. unfold_module. rewrite Hasyncio. reflexivity. Qed.

(** When the import from Playwright raises, the module ends there, with
    [asyncio] bound and nothing else done. *)
Lemma verify_fix_without_playwright {env : Interpreter} (w : world) (e : exn) :
  import_module "asyncio" = Returns tt ->
  import_from "playwright.async_api" "async_playwright" = Raises e ->
  verify_fix w =
    (Raises e, World (trace w) (held w) (asyncio_binding (globals w))).
Proof.
  intros Hasyncio Hplaywright. unfold_module.
  rewrite Hasyncio. cbn. rewrite Hplaywright. reflexivity.
Qed.

(** What the module does in every case: it ends in a world that differs
    from the one it started in by at most the one print and by bindings of
    its three names. *)
Lemma verify_fix_shape {env : Interpreter} (w : world) :
  exists r t' g',
    verify_fix w = (r, World (trace w ++ t') (held w) g') /\
    (t' = [] \/ t' = [Print skip_message]) /\
    (forall k, k <> "asyncio" -> k <> "async_playwright" -> k <> "run" ->
               g' !! k = globals w !! k).
Proof.
  destruct (import_module "asyncio") as [[]|e] eqn:Hasyncio.
  - destruct (import_from "playwright.async_api" "async_playwright")
      as [[]|e] eqn:Hplaywright.
    + rewrite (verify_fix_installed w (conj Hasyncio Hplaywright)).
      destruct (main_guard_shape (trace w) (held w)
                  (module_bindings (globals w))) as (r & t' & -> & Ht').
      exists r, t', (module_bindings (globals w)).
      split; [reflexivity|]. split; [exact Ht'|].
      intros k H1 H2 H3. apply module_bindings_other; assumption.
    + rewrite (verify_fix_without_playwright w e Hasyncio Hplaywright).
      exists (Raises e), [], (asyncio_binding (globals w)).
      rewrite app_nil_r. split; [reflexivity|]. split; [auto|].
      intros k H1 _ _. unfold asyncio_binding.
      rewrite lookup_insert_ne by congruence. reflexivity.
  - rewrite (verify_fix_without_asyncio w e Hasyncio).
    exists (Raises e), [], (globals w). rewrite app_nil_r.
    destruct w; auto.
Qed.

(** Whatever the interpreter finds and the namespace holds, the module
    makes no call or exactly the one print, and leaves the resources
    alone. *)
Lemma verify_fix_steps {env : Interpreter} (w : world) :
  (steps verify_fix w = [] \/ steps verify_fix w = [Print skip_message]) /\
  held (after verify_fix w) = held w.
Proof.
  destruct (verify_fix_shape w) as (r & t' & g' & Heq & Ht' & _).
  unfold steps, after. rewrite Heq. cbn. rewrite drop_own_trace.
  split; [destruct Ht' as [-> | ->]; auto | reflexivity].
Qed.

(** ** Release of resources *)

(** Stopping driver [p] leaves only resources that were there before, as
    soon as everything acquired since belongs to [p]. *)
Lemma release_keeps_only_old (p : handle) (old new : list resource) :
  (forall r, In r new -> owned_by p (old ++ new) r = true) ->
  forall r,
    In r (List.filter (fun r => negb (owned_by p (old ++ new) r)) (old ++ new)) ->
    In r old.
Proof.
  intros Hown r Hr. apply filter_In in Hr as [Hin Hfree].
  apply in_app_or in Hin as [Hold | Hnew]; [exact Hold|].
  rewrite (Hown r Hnew) in Hfree. discriminate.
Qed.

Lemma owned_driver (p : handle) (hs : list resource) :
  owned_by p hs (Driver p) = true.
Proof. simpl. apply Nat.eqb_refl. Qed.

Lemma owned_browser (p b : handle) (hs : list resource) :
  owned_by p hs (BrowserProc p b) = true.
Proof. simpl. apply Nat.eqb_refl. Qed.

Lemma owned_page (p b pg : handle) (hs : list resource) :
  In (BrowserProc p b) hs -> owned_by p hs (PageTab b pg) = true.
Proof.
  intros Hin. simpl. apply existsb_exists. exists (BrowserProc p b).
  split; [exact Hin|]. simpl. rewrite !Nat.eqb_refl. reflexivity.
Qed.

(** What the body of [run] acquires belongs to the driver of the block. *)
Lemma acquired_are_owned (p b pg : handle) (old new : list resource) :
  new `prefix_of` [Driver p; BrowserProc p b; PageTab b pg] ->
  forall r, In r new -> owned_by p (old ++ new) r = true.
Proof.
  intros [rest Hrest] r Hr.
  destruct new as [|r1 [|r2 [|r3 [|r4 new]]]]; simpl in Hrest;
    try discriminate; inversion Hrest; subst; simpl in Hr;
    repeat match goal with
           | H : _ \/ _ |- _ => destruct H
           | H : False |- _ => destruct H
           end; subst;
    try apply owned_driver; try apply owned_browser;
    apply owned_page; apply in_or_app; right; simpl; auto.
Qed.

(** When the exit of the block stops the driver, nothing acquired in the
    block is left, whether the body returned or raised. *)
Lemma run_with_releases {lib : Playwright} (s : string) (w : world) :
  (forall p, pw_start = Returns p -> pw_stop p = Returns tt) ->
  forall r, In r (held (after (run_with s) w)) -> In r (held w).
Proof.
  intros Hstop. run_paths;
    try match goal with
        | H : pw_stop ?a = Raises _ |- _ =>
            rewrite (Hstop a eq_refl) in H; discriminate
        end;
    rewrite <- ?app_assoc; simpl; auto;
    match goal with
    | H1 : pw_start = Returns ?a |- _ =>
        apply (release_keeps_only_old a);
        first [ apply (acquired_are_owned a 0 0);
                exists [BrowserProc a 0; PageTab 0 0]; reflexivity
              | eapply (acquired_are_owned a _ 0);
                eexists [PageTab _ 0]; reflexivity
              | eapply (acquired_are_owned a _ _); exists []; reflexivity ]
    end.
Qed.

(** ** Consequences of the shape of a run *)

Lemma in_full_body (s : string) (p b pg : handle) (a : action) :
  In a (full_body s p b pg) ->
  a = Launch p "chromium" true \/ a = NewPage b \/
  a = SetViewportSize pg 1280 800 \/
  a = AddInitScript pg (init_script_with s) \/
  a = Print navigating_message.
Proof. simpl. intuition auto. Qed.

(** Every call of a run is the start or the stop of the driver or one of
    the five calls of the body. *)
Lemma run_trace_In (s : string) (t : list action) (a : action) :
  run_trace s t -> In a t ->
  a = StartPlaywright \/ (exists p, a = StopPlaywright p) \/
  exists p b pg, In a (full_body s p b pg).
Proof.
  intros Hshape Hin. destruct Hshape as [|p b pg body [rest Hrest] _].
  - simpl in Hin. intuition auto.
  - simpl in Hin. destruct Hin as [<-|Hin]; [auto|].
    apply in_app_or in Hin as [Hin|Hin].
    + right. right. exists p, b, pg. rewrite Hrest.
      apply in_or_app. auto.
    + simpl in Hin. destruct Hin as [<-|[]]. eauto.
Qed.

Lemma run_trace_head (s : string) (t : list action) :
  run_trace s t -> hd_error t = Some StartPlaywright.
Proof. intros []; reflexivity. Qed.

Lemma run_trace_length (s : string) (t : list action) :
  run_trace s t -> 1 <= length t <= 7.
Proof.
  intros [|p b pg body [rest Hrest] _]; simpl; [lia|].
  apply (f_equal (@length action)) in Hrest.
  rewrite !length_app in *. simpl in *. lia.
Qed.

Lemma full_body_NoDup (s : string) (p b pg : handle) :
  NoDup (full_body s p b pg).
Proof.
  unfold full_body.
  repeat (apply NoDup_cons; split);
    rewrite ?list_elem_of_In; simpl; try apply NoDup_nil_2;
    intuition discriminate.
Qed.

(** No call is made twice in a run. *)
Lemma run_trace_NoDup (s : string) (t : list action) :
  run_trace s t -> NoDup t.
Proof.
  intros Hshape.
  destruct Hshape as [|p b pg body Hpre _].
  - apply NoDup_singleton.
  - assert (Hbody : forall a, In a body -> In a (full_body s p b pg)).
    { destruct Hpre as [rest ->]. intros a Ha. apply in_or_app. auto. }
    assert (Hnd : NoDup body).
    { destruct Hpre as [rest Hrest].
      pose proof (full_body_NoDup s p b pg) as Hfull.
      rewrite Hrest in Hfull. apply NoDup_app in Hfull. tauto. }
    apply NoDup_cons. split.
    + rewrite list_elem_of_In. intros Hin.
      apply in_app_or in Hin as [Hin|Hin].
      * apply Hbody, in_full_body in Hin. intuition discriminate.
      * simpl in Hin. intuition discriminate.
    + apply NoDup_app. repeat split.
      * exact Hnd.
      * intros a Ha Hstop. apply list_elem_of_In in Ha, Hstop.
        apply Hbody, in_full_body in Ha. simpl in Hstop.
        destruct Hstop as [<-|[]]. intuition discriminate.
      * apply NoDup_singleton.
Qed.

Lemma stdout_of_app (t k : list action) :
  stdout_of (t ++ k) = stdout_of t ++ stdout_of k.
Proof. unfold stdout_of. apply flat_map_app. Qed.

(** ** Where the injection sits in a run *)


(** * The claims *)

(** ** Execution as the main program *)




(** C2: executed as [__main__], the guard makes a single print and never
    invokes [run].  Whatever the interpreter finds, the execution makes no
    call other than that print, holds no resource it did not hold before,
    and contains no call of any run, although every run makes at least one
    call (it starts the driver first).  When both imports return and
    [print] is the builtin, the execution is that one print. *)
Theorem main_never_invokes_run
  {env : Interpreter} {lib : Playwright} (w : world) :
  globals w !! "__name__" = Some (BStr "__main__") ->
  (steps verify_fix w = [] \/ steps verify_fix w = [Print skip_message]) /\
  (imports_return -> print_is_builtin w ->
   steps verify_fix w = [Print skip_message]) /\
  held (after verify_fix w) = held w /\
  forall w' : world,
    hd_error (steps run w') = Some StartPlaywright /\
    forall a, In a (steps run w') -> ~ In a (steps verify_fix w).
Proof.
  intros Hname.
  destruct (verify_fix_steps w) as [Hsteps Hheld].
  split; [exact Hsteps|]. split.
  { intros Himports Hprint. unfold steps.
    rewrite (verify_fix_as_main w Himports Hprint Hname). cbn.
    apply drop_own_trace. }
  split; [exact Hheld|].
  intros w'. pose proof (run_with_steps_shape mock_autosave w') as Hshape.
  split; [exact (run_trace_head _ _ Hshape)|].
  intros a Ha Hin.
  assert (Hprint : a = Print skip_message).
  { destruct Hsteps as [Hs | Hs]; rewrite Hs in Hin; simpl in Hin;
      intuition auto. }
  subst a.
  destruct (run_trace_In _ _ _ Hshape Ha) as [Hs|[[p Hs]|(p & b & pg & Hs)]];
    try discriminate.
  apply in_full_body in Hs. intuition discriminate.
Qed.

Lemma main_never_invokes_run_witness :
  globals (fresh_world "__main__") !! "__name__" = Some (BStr "__main__") /\
  steps (@verify_fix installed) (fresh_world "__main__") =
    [Print skip_message].
Proof.
  split; [reflexivity|].
  pose proof (@main_never_invokes_run installed cooperative
                (fresh_world "__main__") eq_refl) as (_ & Hone & _).
  apply Hone; [split; reflexivity | reflexivity].
Defined.

(** C3, as stated, fails: run as a program by an interpreter that lacks
    the [playwright] package, the file ends at its second line and writes
    nothing to standard output. *)
Lemma main_without_playwright_prints_nothing :
  ~ (stdout (after (@verify_fix playwright_missing) (fresh_world "__main__")) =
       stdout (fresh_world "__main__") ++ [skip_message]).
Proof. vm_compute. discriminate. Qed.

(** C3, amended: run as a program with both imports returning and [print]
    the builtin, the file writes exactly one line to standard output, the
    fixed skip message, makes no other call, and ends normally.  When an
    import raises, it ends with that exception and writes nothing to
    standard output. *)
Theorem main_prints_exactly_one_line {env : Interpreter} (w : world) :
  globals w !! "__name__" = Some (BStr "__main__") ->
  (imports_return -> print_is_builtin w ->
   stdout (after verify_fix w) =
     stdout w ++
     ["Skipping runtime verification due to environment constraints. Proceeding with static verification."] /\
   steps verify_fix w =
     [Print "Skipping runtime verification due to environment constraints. Proceeding with static verification."] /\
   result verify_fix w = Returns tt) /\
  (forall e,
     import_module "asyncio" = Raises e \/
     (import_module "asyncio" = Returns tt /\
      import_from "playwright.async_api" "async_playwright" = Raises e) ->
     stdout (after verify_fix w) = stdout w /\
     steps verify_fix w = [] /\
     result verify_fix w = Raises e).
Proof.
  intros Hname. split.
  - intros Himports Hprint. unfold stdout, steps, after, result.
    rewrite (verify_fix_as_main w Himports Hprint Hname). cbn.
    rewrite stdout_of_app, drop_own_trace. auto.
  - intros e [Hasyncio | [Hasyncio Hplaywright]];
      unfold stdout, steps, after, result.
    + rewrite (verify_fix_without_asyncio w e Hasyncio). cbn.
      rewrite drop_whole_trace. auto.
    + rewrite (verify_fix_without_playwright w e Hasyncio Hplaywright). cbn.
      rewrite drop_whole_trace. auto.
Qed.

Lemma main_prints_exactly_one_line_witness :
  globals (fresh_world "__main__") !! "__name__" = Some (BStr "__main__") /\
  @imports_return installed /\
  print_is_builtin (fresh_world "__main__") /\
  stdout (after (@verify_fix installed) (fresh_world "__main__")) =
    ["Skipping runtime verification due to environment constraints. Proceeding with static verification."].
Proof.
  split; [reflexivity|]. split; [split; reflexivity|].
  split; [reflexivity|].
  pose proof (@main_prints_exactly_one_line installed
                (fresh_world "__main__") eq_refl) as [Hone _].
  apply Hone; [split; reflexivity | reflexivity].
Defined.

(** ** Import without execution *)

(** C9, as stated, fails: imported by an interpreter that lacks the
    [playwright] package, the module does not end normally and does not
    define [run]. *)
Lemma import_without_playwright_raises :
  ~ (result (@verify_fix playwright_missing) (fresh_world "verify_fix") =
       Returns tt /\
     globals (after (@verify_fix playwright_missing) (fresh_world "verify_fix"))
       !! "run" = Some (BCoroutineFunction "run")).
Proof. intros [Hres _]. vm_compute in Hres. discriminate. Qed.

(** C9, amended: under any name other than [__main__] and with both
    imports returning, executing the module top level makes no call at
    all: nothing is printed, no browser is launched, no resource is taken,
    and the only change is that the namespace now binds [asyncio],
    [async_playwright] and [run].  When an import raises, the module ends
    with that exception before [run] is bound, and still makes no call and
    takes no resource. *)
Theorem import_has_no_observable_effect
  {env : Interpreter} (w : world) (name : string) :
  globals w !! "__name__" = Some (BStr name) ->
  name <> "__main__" ->
  (imports_return ->
   result verify_fix w = Returns tt /\
   steps verify_fix w = [] /\
   trace (after verify_fix w) = trace w /\
   stdout (after verify_fix w) = stdout w /\
   held (after verify_fix w) = held w /\
   globals (after verify_fix w) = module_bindings (globals w) /\
   dom (globals (after verify_fix w)) =
     {[ "asyncio"; "async_playwright"; "run" ]} ∪ dom (globals w)) /\
  (forall e,
     import_module "asyncio" = Raises e \/
     (import_module "asyncio" = Returns tt /\
      import_from "playwright.async_api" "async_playwright" = Raises e) ->
     result verify_fix w = Raises e /\
     steps verify_fix w = [] /\
     stdout (after verify_fix w) = stdout w /\
     held (after verify_fix w) = held w /\
     globals (after verify_fix w) !! "run" = globals w !! "run").
Proof.
  intros Hname Hne. split.
  - intros Himports. unfold stdout, steps, after, result.
    rewrite (verify_fix_as_import w name Himports Hname Hne). cbn.
    repeat split.
    + apply drop_whole_trace.
    + unfold module_bindings. rewrite !dom_insert_L.
      apply set_eq. intros x.
      rewrite !elem_of_union, !elem_of_singleton. tauto.
  - intros e [Hasyncio | [Hasyncio Hplaywright]];
      unfold stdout, steps, after, result.
    + rewrite (verify_fix_without_asyncio w e Hasyncio). cbn.
      rewrite drop_whole_trace. auto.
    + rewrite (verify_fix_without_playwright w e Hasyncio Hplaywright). cbn.
      rewrite drop_whole_trace.
      repeat split. unfold asyncio_binding.
      rewrite lookup_insert_ne by discriminate. reflexivity.
Qed.

Lemma import_has_no_observable_effect_witness :
  globals (fresh_world "verify_fix") !! "__name__" = Some (BStr "verify_fix") /\
  "verify_fix" <> "__main__" /\
  @imports_return installed /\
  steps (@verify_fix installed) (fresh_world "verify_fix") = [] /\
  stdout (after (@verify_fix installed) (fresh_world "verify_fix")) = [].
Proof.
  split; [reflexivity|]. split; [discriminate|].
  split; [split; reflexivity|].
  pose proof (@import_has_no_observable_effect installed
                (fresh_world "verify_fix") "verify_fix" eq_refl
                ltac:(discriminate)) as [Hok _].
  destruct (Hok (conj eq_refl eq_refl)) as (_ & Hsteps & _ & Hout & _).
  split; [exact Hsteps | exact Hout].
Defined.

(** ** The coroutine [run] *)

(** C4: the object written to local storage is dead data.  Take any two
    contents of it and any library that answers the injection of the one as
    it answers the injection of the other.  Then the two runs end the same
    way, make the same calls up to the text of the injected script, print
    the same output, and leave the same resources and namespace. *)
Theorem autosave_is_dead_data {lib : Playwright} (s1 s2 : string) (w : world) :
  (forall pg,
     pw_add_init_script pg (init_script_with s1) =
     pw_add_init_script pg (init_script_with s2)) ->
  result (run_with s1) w = result (run_with s2) w /\
  map blank_script (steps (run_with s1) w) =
    map blank_script (steps (run_with s2) w) /\
  stdout (after (run_with s1) w) = stdout (after (run_with s2) w) /\
  held (after (run_with s1) w) = held (after (run_with s2) w) /\
  globals (after (run_with s1) w) = globals (after (run_with s2) w).
Proof.
  intros Hsame. unfold stdout. unfold_script.
  repeat (rewrite ?Hsame; next_reply);
    tidy_trace; rewrite ?stdout_of_app; auto.
Qed.

Lemma autosave_is_dead_data_witness :
  (forall pg,
     @pw_add_init_script cooperative pg (init_script_with "{}") =
     @pw_add_init_script cooperative pg (init_script_with mock_autosave)) /\
  stdout (after (@run_with cooperative "{}") (fresh_world "__main__")) =
    stdout (after (@run_with cooperative mock_autosave) (fresh_world "__main__")).
Proof.
  split; [reflexivity|].
  apply (@autosave_is_dead_data cooperative "{}" mock_autosave
           (fresh_world "__main__")).
  reflexivity.
Defined.

(** C5: [run] always completes, whatever the library replies: it makes at
    least one and at most seven calls, none of them twice.  The program as
    a whole makes at most one call, and it is not the start of a driver, so
    [run] is not invoked by it. *)
Theorem run_completes_in_bounded_steps
  {env : Interpreter} {lib : Playwright} (w : world) :
  (exists r w', run w = (r, w')) /\
  1 <= length (steps run w) <= 7 /\
  NoDup (steps run w) /\
  length (steps verify_fix w) <= 1 /\
  ~ In StartPlaywright (steps verify_fix w).
Proof.
  pose proof (run_with_steps_shape mock_autosave w) as Hshape.
  split; [exists (fst (run w)), (snd (run w)); apply surjective_pairing|].
  split; [exact (run_trace_length _ _ Hshape)|].
  split; [exact (run_trace_NoDup _ _ Hshape)|].
  destruct (verify_fix_steps w) as [[-> | ->] _]; simpl;
    (split; [lia | intuition discriminate]).
Qed.

(** C6: when [run] returns, it took a browser process and a page inside
    the [async with] block and the exit of the block released both.  At the
    end of the body, just before the exit, the driver, the browser and the
    page the library handed out are held on top of what was held before
    the call; after [run], neither the browser nor the page is held, and
    every resource held was held before the call.  That stopping the
    driver closes its browsers and their pages is Playwright's contract,
    taken as the model states it in [release]. *)
Theorem run_releases_browser_and_page {lib : Playwright} (w : world) :
  result run w = Returns tt ->
  exists p b pg,
    pw_start = Returns p /\
    pw_launch p "chromium" true = Returns b /\
    pw_new_page b = Returns pg /\
    In (Launch p "chromium" true) (steps run w) /\
    In (NewPage b) (steps run w) /\
    held (after (block_body mock_autosave p) (after async_playwright_enter w)) =
      held w ++ [Driver p; BrowserProc p b; PageTab b pg] /\
    after run w =
      after (async_playwright_exit p)
        (after (block_body mock_autosave p) (after async_playwright_enter w)) /\
    ~ In (BrowserProc p b) (held (after run w)) /\
    ~ In (PageTab b pg) (held (after run w)) /\
    forall r, In r (held (after run w)) -> In r (held w).
Proof.
  intros Hret.
  assert (Hall : forall r, In r (held (after run w)) -> In r (held w)).
  { apply run_with_releases. intros p Hp. revert Hret.
    run_paths; intros Hret; try discriminate Hret;
      match goal with
      | H : pw_stop _ = Returns ?u |- _ => destruct u
      end; congruence. }
  revert Hret Hall.
  run_paths; intros Hret Hall; try discriminate Hret. clear Hret.
  match goal with
  | H1 : pw_start = Returns ?p, H2 : pw_new_page ?b = Returns ?pg |- _ =>
      exists p, b, pg
  end.
  repeat (match goal with H : _ = Returns _ |- _ => rewrite H end; simpl).
  rewrite <- !app_assoc in *. simpl in *. rewrite drop_own_trace.
  repeat split; auto.
  - simpl. auto.
  - simpl. auto.
  - intros Hin. apply filter_In in Hin as [_ Hfree].
    rewrite owned_browser in Hfree. discriminate Hfree.
  - intros Hin. apply filter_In in Hin as [_ Hfree].
    rewrite owned_page in Hfree; [discriminate Hfree|].
    apply in_or_app. right. simpl. auto.
Qed.

Lemma run_releases_browser_and_page_witness :
  result (@run cooperative) (fresh_world "__main__") = Returns tt /\
  held (after (@block_body cooperative mock_autosave 1)
          (after (@async_playwright_enter cooperative) (fresh_world "__main__"))) =
    [Driver 1; BrowserProc 1 2; PageTab 2 3] /\
  held (after (@run cooperative) (fresh_world "__main__")) = [].
Proof.
  split; [reflexivity|].
  destruct (@run_releases_browser_and_page cooperative
              (fresh_world "__main__") eq_refl)
    as (p & b & pg & _ & _ & _ & _ & _ & _ & _ & _ & _ & _).
  split; reflexivity.
Defined.

(** C7: no execution, of [run] under any library or of the module under
    any name, contains a navigation, an assertion or a comparison of
    renderings. *)
Theorem no_navigation_assertion_comparison
  {env : Interpreter} {lib : Playwright} (w w' : world) :
  existsb is_verification (steps run w ++ steps verify_fix w') = false.
Proof.
  rewrite existsb_app. apply orb_false_intro.
  - destruct (existsb is_verification (steps run w)) eqn:Hex; [|reflexivity].
    apply existsb_exists in Hex as (a & Ha & Hv).
    pose proof (run_with_steps_shape mock_autosave w) as Hshape.
    destruct (run_trace_In _ _ _ Hshape Ha) as [->|[[p ->]|(p & b & pg & Hs)]];
      try discriminate Hv.
    apply in_full_body in Hs.
    destruct Hs as [->|[->|[->|[->| ->]]]]; discriminate Hv.
  - destruct (verify_fix_steps w') as [[-> | ->] _]; reflexivity.
Qed.

(** C8: every call of every execution is a write to standard output or a
    call into the browser library; none opens a file, reads the
    environment or reads the command line.  Executed as a module, the
    script makes only writes to standard output. *)
Theorem only_stdout_and_library_calls
  {env : Interpreter} {lib : Playwright} (w w' : world) :
  forallb stdout_or_library (steps run w ++ steps verify_fix w') = true /\
  Forall (fun a => effect_of a = StdoutWrite) (steps verify_fix w').
Proof.
  split.
  - rewrite forallb_app. apply andb_true_intro. split.
    + apply forallb_forall. intros a Ha.
      pose proof (run_with_steps_shape mock_autosave w) as Hshape.
      destruct (run_trace_In _ _ _ Hshape Ha) as [->|[[p ->]|(p & b & pg & Hs)]];
        try reflexivity.
      apply in_full_body in Hs.
      destruct Hs as [->|[->|[->|[->| ->]]]]; reflexivity.
    + destruct (verify_fix_steps w') as [[-> | ->] _]; reflexivity.
  - destruct (verify_fix_steps w') as [[-> | ->] _]; repeat constructor.
Qed.



(** ** The exception path, on a concrete library *)

(** When no page can be opened, the body stops at [new_page], the driver
    is stopped all the same, the exception of the body comes out of [run],
    and nothing is printed or left held. *)
Example run_without_pages :
  let w := fresh_world "__main__" in
  result (@run no_pages) w = Raises (Exception "Target closed") /\
  steps (@run no_pages) w =
    [StartPlaywright; Launch 1 "chromium" true; NewPage 2; StopPlaywright 1] /\
  stdout (after (@run no_pages) w) = [] /\
  held (after (@run no_pages) w) = [].
Proof. repeat split. Qed.

(** Under the cooperative library the block holds the driver, the browser
    and the page until its exit, which releases the three. *)
Example run_cooperative_releases :
  let w := fresh_world "__main__" in
  result (@run cooperative) w = Returns tt /\
  stdout (after (@run cooperative) w) = [navigating_message] /\
  held (after (@run cooperative) w) = [].
Proof. repeat split. Qed.

(** * Further properties of the code *)

Ltac units := repeat match goal with u : unit |- _ => destruct u end.

(** ** How [run] ends *)





(** ** The [async with] block *)

(** When the driver does not start, the block is not entered: the
    exception comes out of [run], the start is the only call made (no stop
    follows it), nothing is printed and no resource is taken. *)
Theorem failed_start_skips_block {lib : Playwright} (w : world) (e : exn) :
  pw_start = Raises e ->
  result run w = Raises e /\
  steps run w = [StartPlaywright] /\
  stdout (after run w) = stdout w /\
  held (after run w) = held w.
Proof.
  intros Hstart. unfold stdout. unfold_script. rewrite Hstart; simpl.
  tidy_trace. rewrite stdout_of_app; simpl. rewrite app_nil_r. auto.
Qed.

Lemma failed_start_skips_block_witness :
  @pw_start no_driver = Raises (Exception "Driver not found") /\
  steps (@run no_driver) (fresh_world "__main__") = [StartPlaywright].
Proof.
  split; [reflexivity|].
  apply (@failed_start_skips_block no_driver (fresh_world "__main__")
           (Exception "Driver not found")).
  reflexivity.
Defined.

(** Once the driver has started, it is stopped exactly once and the stop
    is the last call of [run], on every path through the body, the
    raising ones included. *)
Theorem started_driver_is_stopped_last {lib : Playwright}
  (w : world) (p : handle) :
  pw_start = Returns p ->
  last (steps run w) = Some (StopPlaywright p) /\
  List.filter is_stop (steps run w) = [StopPlaywright p].
Proof.
  intros Hstart. unfold_script. rewrite Hstart; simpl.
  repeat next_reply; tidy_trace; split; reflexivity.
Qed.

Lemma started_driver_is_stopped_last_witness :
  @pw_start no_pages = Returns 1 /\
  last (steps (@run no_pages) (fresh_world "__main__")) =
    Some (StopPlaywright 1).
Proof.
  split; [reflexivity|].
  apply (@started_driver_is_stopped_last no_pages (fresh_world "__main__") 1).
  reflexivity.
Defined.

(** When the stop of the driver raises, that exception is the one that
    comes out of [run], also when the body had raised another. *)
Theorem exit_exception_replaces_body_exception {lib : Playwright}
  (w : world) (p : handle) (e : exn) :
  pw_start = Returns p ->
  pw_stop p = Raises e ->
  result run w = Raises e.
Proof.
  intros Hstart Hstop. unfold_script. rewrite Hstart; simpl.
  repeat (rewrite ?Hstop; simpl;
          try match goal with
              | |- context [pw_stop p] => fail 1
              | |- context [match ?r with Returns _ => _ | Raises _ => _ end] =>
                  destruct r; simpl
              end);
    rewrite ?Hstop; simpl; reflexivity.
Qed.

Lemma exit_exception_replaces_body_exception_witness :
  @pw_start stop_fails = Returns 1 /\
  @pw_stop stop_fails 1 = Raises (Exception "Connection closed") /\
  @pw_new_page stop_fails 2 = Raises (Exception "Target closed") /\
  result (@run stop_fails) (fresh_world "__main__") =
    Raises (Exception "Connection closed").
Proof.
  split; [reflexivity|]. split; [reflexivity|]. split; [reflexivity|].
  apply (@exit_exception_replaces_body_exception stop_fails
           (fresh_world "__main__") 1 (Exception "Connection closed"));
    reflexivity.
Defined.

(** Whenever the stop of the driver returns, nothing taken inside the
    block is left held, also when the body raised part way through with a
    browser or a page already open. *)
Theorem run_releases_when_exit_returns {lib : Playwright} (w : world) :
  (forall p, pw_start = Returns p -> pw_stop p = Returns tt) ->
  forall r, In r (held (after run w)) -> In r (held w).
Proof.
  intros Hstop r Hr. unfold run in Hr.
  exact (run_with_releases mock_autosave w Hstop r Hr).
Qed.

Lemma run_releases_when_exit_returns_witness :
  (forall p, @pw_start no_pages = Returns p -> @pw_stop no_pages p = Returns tt) /\
  result (@run no_pages) (fresh_world "__main__") =
    Raises (Exception "Target closed") /\
  forall r,
    In r (held (after (@run no_pages) (fresh_world "__main__"))) ->
    In r (held (fresh_world "__main__")).
Proof.
  split; [reflexivity|]. split; [reflexivity|].
  apply (@run_releases_when_exit_returns no_pages (fresh_world "__main__")).
  reflexivity.
Defined.

(** ** Data flow in [run] *)

(** Every call of [run] is made with the literals of the source and on the
    handle returned by the call before it, after all the calls before it
    returned: no page is asked of a browser that did not launch, and
    nothing is configured on a page that was not opened. *)
Theorem run_calls_are_entitled {lib : Playwright} (w : world) :
  Forall entitled (steps run w).
Proof.
  unfold entitled, body_calls_return, init_script.
  run_paths; units; tidy_trace;
    repeat (apply Forall_cons; split); try apply Forall_nil;
    repeat split; eauto 10.
Qed.

(** ** The module top level *)

(** The guard is exact.  With both imports returning and [print] the
    builtin, the skip message is printed if and only if [__name__] is
    bound to the string [__main__]; under any other binding the module
    makes no call. *)
Theorem module_prints_iff_main {env : Interpreter} (w : world) :
  imports_return ->
  print_is_builtin w ->
  (steps verify_fix w = [Print skip_message] <->
   globals w !! "__name__" = Some (BStr "__main__")) /\
  (steps verify_fix w = [] <->
   globals w !! "__name__" <> Some (BStr "__main__")).
Proof.
  intros Himports Hprint.
  assert (Hmain : globals w !! "__name__" = Some (BStr "__main__") ->
                  steps verify_fix w = [Print skip_message]).
  { intros Hname. unfold steps.
    rewrite (verify_fix_as_main w Himports Hprint Hname). cbn.
    apply drop_own_trace. }
  assert (Hother : globals w !! "__name__" <> Some (BStr "__main__") ->
                   steps verify_fix w = []).
  { intros Hne. unfold steps. rewrite (verify_fix_installed w Himports).
    unfold_guard. rewrite module_bindings_name, builtins_name.
    destruct (globals w !! "__name__") as [[s| | | |]|] eqn:Hb; cbn;
      try apply drop_whole_trace.
    destruct (String.eqb_spec s "__main__") as [->|_]; [congruence|].
    cbn. apply drop_whole_trace. }
  split; split; auto.
  - intros Hsteps.
    destruct (globals w !! "__name__") as [[s| | | |]|] eqn:Hb;
      try (rewrite Hother in Hsteps by congruence; discriminate Hsteps).
    destruct (String.eqb_spec s "__main__") as [->|Hs]; [reflexivity|].
    rewrite Hother in Hsteps by congruence. discriminate Hsteps.
  - intros Hsteps Hname. rewrite (Hmain Hname) in Hsteps.
    discriminate Hsteps.
Qed.

Lemma module_prints_iff_main_witness :
  @imports_return installed /\
  print_is_builtin (fresh_world "__main__") /\
  steps (@verify_fix installed) (fresh_world "__main__") =
    [Print skip_message] /\
  steps (@verify_fix installed) (fresh_world "verify_fix") = [].
Proof.
  split; [split; reflexivity|]. split; [reflexivity|]. split.
  - apply (@module_prints_iff_main installed (fresh_world "__main__"));
      [split; reflexivity | reflexivity | reflexivity].
  - apply (@module_prints_iff_main installed (fresh_world "verify_fix"));
      [split; reflexivity | reflexivity | discriminate].
Defined.

(** The module binds at most the names [asyncio], [async_playwright] and
    [run]: every other name of the namespace is left as it was, whatever
    the interpreter finds.  When both imports return, the three names are
    rebound, whatever they were bound to before. *)
Theorem module_rebinds_only_its_names
  {env : Interpreter} (w : world) (k : string) :
  k <> "asyncio" -> k <> "async_playwright" -> k <> "run" ->
  globals (after verify_fix w) !! k = globals w !! k /\
  (imports_return ->
   globals (after verify_fix w) !! "asyncio" = Some (BModule "asyncio") /\
   globals (after verify_fix w) !! "async_playwright" =
     Some (BImported "playwright.async_api" "async_playwright") /\
   globals (after verify_fix w) !! "run" = Some (BCoroutineFunction "run")).
Proof.
  intros H1 H2 H3. split.
  - destruct (verify_fix_shape w) as (r & t' & g' & Heq & _ & Hframe).
    unfold after. rewrite Heq. cbn. apply Hframe; assumption.
  - intros Himports.
    destruct (main_guard_shape (trace w) (held w)
                (module_bindings (globals w))) as (r & t' & Heq & _).
    unfold after. rewrite (verify_fix_installed w Himports), Heq. cbn.
    unfold module_bindings. repeat split.
    + rewrite !lookup_insert_ne by discriminate. apply lookup_insert_eq.
    + rewrite lookup_insert_ne by discriminate. apply lookup_insert_eq.
    + apply lookup_insert_eq.
Qed.

Lemma module_rebinds_only_its_names_witness :
  "__name__" <> "asyncio" /\
  @imports_return installed /\
  globals (after (@verify_fix installed) (fresh_world "__main__")) !! "__name__" =
    Some (BStr "__main__") /\
  globals (after (@verify_fix installed) (fresh_world "__main__")) !! "run" =
    Some (BCoroutineFunction "run").
Proof.
  split; [discriminate|]. split; [split; reflexivity|].
  destruct (@module_rebinds_only_its_names installed
              (fresh_world "__main__") "__name__"
              ltac:(discriminate) ltac:(discriminate) ltac:(discriminate))
    as [Hframe Hbound].
  split; [exact Hframe|].
  apply Hbound. split; reflexivity.
Defined.

(** When the import from Playwright raises, the module ends with that
    exception at its second line: [asyncio] is bound, [async_playwright]
    and [run] are not touched, the guard is not reached, and nothing is
    printed, under [__main__] as under any other name. *)
Theorem failed_import_ends_module {env : Interpreter} (w : world) (e : exn) :
  import_module "asyncio" = Returns tt ->
  import_from "playwright.async_api" "async_playwright" = Raises e ->
  result verify_fix w = Raises e /\
  steps verify_fix w = [] /\
  stdout (after verify_fix w) = stdout w /\
  globals (after verify_fix w) !! "asyncio" = Some (BModule "asyncio") /\
  globals (after verify_fix w) !! "async_playwright" =
    globals w !! "async_playwright" /\
  globals (after verify_fix w) !! "run" = globals w !! "run".
Proof.
  intros Hasyncio Hplaywright. unfold result, steps, stdout, after.
  rewrite (verify_fix_without_playwright w e Hasyncio Hplaywright). cbn.
  rewrite drop_whole_trace. unfold asyncio_binding. repeat split.
  - apply lookup_insert_eq.
  - rewrite lookup_insert_ne by discriminate. reflexivity.
  - rewrite lookup_insert_ne by discriminate. reflexivity.
Qed.

Lemma failed_import_ends_module_witness :
  @import_module playwright_missing "asyncio" = Returns tt /\
  steps (@verify_fix playwright_missing) (fresh_world "__main__") = [] /\
  globals (after (@verify_fix playwright_missing) (fresh_world "__main__"))
    !! "run" = None.
Proof.
  split; [reflexivity|].
  destruct (@failed_import_ends_module playwright_missing
              (fresh_world "__main__")
              (Exception "ModuleNotFoundError: No module named playwright.async_api")
              eq_refl eq_refl) as (_ & Hsteps & _ & _ & _ & Hrun).
  split; [exact Hsteps | exact Hrun].
Defined.
